(** * Asteroid Mining Mission Planner (src/app.py)

    A shallow embedding of the Streamlit script [app.py]: the built-in table
    of asteroids, the boolean-mask filter over it, the profit bands and the
    page the script renders, with the properties stated for them.

    Numbers are Python floats, that is IEEE 754 binary64: they are modelled
    by Rocq's primitive [float], whose literals are rounded to the nearest
    binary64 value exactly as Python's are, and whose comparisons and
    multiplication are the hardware ones. *)

From Stdlib Require Import Floats ZArith PArith Bool List String Ascii Lia.
From Stdlib Require Import DecimalString.
Import ListNotations.

Set Warnings "-inexact-float".
Local Open Scope string_scope.
Local Open Scope list_scope.

(** ** Binary64 comparisons *)

Module F64.

(** Python's [x >= y] on floats; false as soon as one side is NaN. *)
Definition geb (x y : float) : bool := PrimFloat.leb y x.

(** Python's [x <= y] on floats. *)
Definition leb (x y : float) : bool := PrimFloat.leb x y.

(** A float that is neither NaN nor an infinity. *)
Definition isfinite (x : float) : bool := PrimFloat.is_finite x.

(** [x > 0] on floats. *)
Definition positive (x : float) : bool := PrimFloat.ltb 0%float x.

End F64.

(** ** The error monad of the script

    A Python exception aborts the whole run: [None] stands for a raised
    exception, [Some v] for a normal result. *)

Definition bind {A B : Type} (m : option A) (k : A -> option B) : option B :=
  match m with
  | Some v => k v
  | None => None
  end.

Notation "x <- m ;; k" := (bind m (fun x => k))
  (at level 61, m at next level, right associativity).

(** ** pandas: a table of asteroids *)

(** One row of the table; the fields are the column labels of [data]. *)
Record Row := {
  name : string;
  a : float;
  e : float;
  i : float;
  diameter_km : float;
  est_value_billion_usd : float;
  spectral_type : string;
  delta_v_km_s : float
}.

Definition DataFrame := list Row.

(** The dict of columns handed to [pd.DataFrame]. *)
Record Columns := {
  col_name : list string;
  col_a : list float;
  col_e : list float;
  col_i : list float;
  col_diameter_km : list float;
  col_est_value_billion_usd : list float;
  col_spectral_type : list string;
  col_delta_v_km_s : list float
}.

(** Rows of a dict of columns; columns of unequal length make pandas raise
    ValueError. *)
Fixpoint zip_rows (cn : list string) (ca ce ci cd cv : list float)
  (ct : list string) (cdv : list float) : option DataFrame :=
  match cn, ca, ce, ci, cd, cv, ct, cdv with
  | [], [], [], [], [], [], [], [] => Some []
  | n0 :: cn', a0 :: ca', e0 :: ce', i0 :: ci', d0 :: cd', v0 :: cv',
    t0 :: ct', dv0 :: cdv' =>
      rest <- zip_rows cn' ca' ce' ci' cd' cv' ct' cdv' ;;
      Some ({| name := n0; a := a0; e := e0; i := i0; diameter_km := d0;
               est_value_billion_usd := v0; spectral_type := t0;
               delta_v_km_s := dv0 |} :: rest)
  | _, _, _, _, _, _, _, _ => None
  end.

Definition pd_DataFrame (d : Columns) : option DataFrame :=
  zip_rows (col_name d) (col_a d) (col_e d) (col_i d) (col_diameter_km d)
    (col_est_value_billion_usd d) (col_spectral_type d) (col_delta_v_km_s d).

(** [df[label]]: one column of the table. *)
Definition column {A : Type} (label : Row -> A) (df : DataFrame) : list A :=
  map label df.

(** [Series.unique()]: the distinct values in order of first appearance. *)
Fixpoint unique_from (seen : list string) (s : list string) : list string :=
  match s with
  | [] => []
  | x :: s' =>
      if existsb (String.eqb x) seen then unique_from seen s'
      else x :: unique_from (x :: seen) s'
  end.

Definition unique (s : list string) : list string := unique_from [] s.

(** [Series.isin(values)]. *)
Definition isin (s : list string) (values : list string) : list bool :=
  map (fun x => existsb (String.eqb x) values) s.

(** [series >= x] and [series <= x], element by element. *)
Definition series_ge (s : list float) (x : float) : list bool :=
  map (fun v => F64.geb v x) s.

Definition series_le (s : list float) (x : float) : list bool :=
  map (fun v => F64.leb v x) s.

(** [m1 & m2] on two boolean Series over the same index. *)
Definition series_and (m1 m2 : list bool) : list bool :=
  map (fun p => andb (fst p) (snd p)) (combine m1 m2).

(** [series == x] on a column of strings. *)
Definition series_eq (s : list string) (x : string) : list bool :=
  map (fun v => String.eqb v x) s.

(** [df[mask]]: the rows whose mask entry is [True], in the table's order. *)
Fixpoint getitem_mask (df : DataFrame) (mask : list bool) : DataFrame :=
  match df, mask with
  | r :: df', b :: mask' =>
      if b then r :: getitem_mask df' mask' else getitem_mask df' mask'
  | _, _ => []
  end.

(** [df.iloc[0]]: the first row; IndexError on an empty table. *)
Definition iloc0 (df : DataFrame) : option Row :=
  match df with
  | r :: _ => Some r
  | [] => None
  end.

(** [df.empty]. *)
Definition empty (df : DataFrame) : bool :=
  match df with
  | [] => true
  | _ :: _ => false
  end.

(** ** Load data *)

(** The integer literals of the dict ([226], [10000], ...) sit in columns
    that also hold floats, so pandas stores them as float64. *)
Definition data : Columns := {|
  col_name := ["16 Psyche"; "Ryugu"; "Bennu"; "1 Ceres"; "4 Vesta"; "433 Eros"];
  col_a := [2.92; 1.19; 1.13; 2.77; 2.36; 1.46]%float;
  col_e := [0.14; 0.19; 0.20; 0.08; 0.10; 0.22]%float;
  col_i := [7.0; 5.9; 6.0; 10.6; 7.1; 10.8]%float;
  col_diameter_km := [226; 0.9; 0.49; 946; 525; 16.8]%float;
  col_est_value_billion_usd := [10000; 8.8; 0.67; 1000; 500; 0.1]%float;
  col_spectral_type := ["M"; "C"; "B"; "C"; "V"; "S"];
  col_delta_v_km_s := [5.5; 4.6; 5.1; 9.0; 7.8; 5.8]%float
|}.

Definition load_asteroids : option DataFrame := pd_DataFrame data.

(** ** Apply filters *)

(** The boolean mask of lines 54-57, left-associated as Python's [&] is. *)
Definition filter_mask (df : DataFrame) (selected_types : list string)
  (min_diam min_value max_dv : float) : list bool :=
  series_and
    (series_and
       (series_and
          (isin (column spectral_type df) selected_types)
          (series_ge (column diameter_km df) min_diam))
       (series_ge (column est_value_billion_usd df) min_value))
    (series_le (column delta_v_km_s df) max_dv).

Definition df_filt (df : DataFrame) (selected_types : list string)
  (min_diam min_value max_dv : float) : DataFrame :=
  getitem_mask df (filter_mask df selected_types min_diam min_value max_dv).

(** ** Profit bands *)

(** The body of the loop of lines 72-75 for one row: [(low, high)]. *)
Definition profit_band (row : Row) : float * float :=
  let base_value := est_value_billion_usd row in
  let low := (base_value * 0.6)%float in
  let high := (base_value * 1.4)%float in
  (low, high).

(** ** The page *)

(** poliastro: [Orbit.circular(attractor, length)] is kept as a constructor;
    what the library computes from its two arguments is outside the script. *)
Inductive Body := Sun.

Inductive LengthUnit := AU.

(** [x * u.AU]: an astropy quantity. *)
Record Quantity := { magnitude : float; unit : LengthUnit }.

Inductive Orbit := Orbit_circular (attractor : Body) (length : Quantity).

(** poliastro and astropy are not part of the script; the four definitions
    below follow their documentation.  Lengths are in metres.

    One astronomical unit is 149597870700 m ([u.AU]). *)
Definition au_in_m : float := 149597870700.

Definition to_m (q : Quantity) : float :=
  match unit q with
  | AU => (magnitude q * au_in_m)%float
  end.

(** [attractor.R]: the equatorial radius of the body; for the Sun
    6.957e8 m ([poliastro.constants.R_sun]). *)
Definition R_m (b : Body) : float :=
  match b with
  | Sun => 695700000
  end.

(** [Orbit.circular(attractor, alt)] takes the altitude of the orbit over
    the surface of the attractor. *)
Definition altitude_m (orb : Orbit) : float :=
  match orb with
  | Orbit_circular _ alt => to_m alt
  end.

(** The radius of that circular orbit, [a = attractor.R + alt]. *)
Definition radius_m (orb : Orbit) : float :=
  match orb with
  | Orbit_circular attractor alt => (R_m attractor + to_m alt)%float
  end.

(** One marker of the scatter chart of [px.scatter]. *)
Record ScatterPoint := {
  pt_x : float;
  pt_y : float;
  pt_size : float;
  pt_color : string;
  pt_hover_name : string
}.

Inductive Figure :=
| ScatterFigure (title : string) (points : list ScatterPoint)
| OrbitFigure (traces : list (Orbit * string)).

(** What one Streamlit call puts on the page.  A metric keeps the three
    numbers it is built from; their rendering as text ([:,.0f]) is not
    modelled. *)
Inductive Element :=
| Title (body : string)
| Caption (body : string)
| Header (body : string)
| Multiselect (label : string) (options default : list string)
| Slider (label : string) (min_value max_value value : float)
| Subheader (body : string)
| Dataframe (rows : list (string * float * float * float * string))
| Metric (label : string) (base_value low high : float)
| PlotlyChart (fig : Figure)
| Selectbox (label : string) (options : list string) (index : nat)
| Info (body : string).

(** What the user has set in the browser; [None] is a control left alone,
    which returns its default. *)
Record Session := {
  ui_selected_types : option (list string);
  ui_min_diam : option float;
  ui_min_value : option float;
  ui_max_dv : option float;
  ui_orbit : option nat
}.

Definition st_multiselect (user : option (list string))
  (options default : list string) : list string :=
  match user with
  | Some chosen => chosen
  | None => default
  end.

Definition st_slider (user : option float) (min_value max_value value : float)
  : float :=
  match user with
  | Some chosen => chosen
  | None => value
  end.

(** [st.selectbox(label, options, index)] returns one of its options: the
    one picked in the browser, or the one at [index] when the control is left
    alone or the pick is of an option that is no longer offered (the control
    then starts afresh).  Python's [None] comes back only when there is no
    option at [index], that is, for [index = 0], when there is no option at
    all. *)
Definition st_selectbox (user : option nat) (options : list string)
  (index : nat) : option string :=
  match user with
  | Some chosen =>
      match nth_error options chosen with
      | Some picked => Some picked
      | None => nth_error options index
      end
  | None => nth_error options index
  end.

(** Bounds and default of the three sliders of lines 48-50. *)
Definition min_diam_bounds : float * float * float := (0.1, 1000.0, 0.5)%float.
Definition min_value_bounds : float * float * float :=
  (0.1, 20000.0, 1.0)%float.
Definition max_dv_bounds : float * float * float := (4.0, 15.0, 7.0)%float.

Definition slider_min (b : float * float * float) : float := fst (fst b).
Definition slider_max (b : float * float * float) : float := snd (fst b).
Definition slider_default (b : float * float * float) : float := snd b.

Definition string_of_nat (n : nat) : string :=
  NilEmpty.string_of_uint (Nat.to_uint n).

(** The five columns shown in the results table. *)
Definition table_row (row : Row)
  : string * float * float * float * string :=
  (name row, diameter_km row, est_value_billion_usd row, delta_v_km_s row,
   spectral_type row).

Definition metric (row : Row) : Element :=
  let base_value := est_value_billion_usd row in
  let '(low, high) := profit_band row in
  Metric (name row) base_value low high.

Definition px_scatter (df : DataFrame) : Figure :=
  ScatterFigure "Semi-major Axis vs Inclination (size = diameter)"
    (map (fun row => {| pt_x := a row; pt_y := i row;
                        pt_size := diameter_km row;
                        pt_color := spectral_type row;
                        pt_hover_name := name row |}) df).

(** Lines 85-108: the two charts, or the notice. *)
Definition orbit_section (ui : Session) (filt : DataFrame)
  : option (list Element) :=
  if negb (empty filt) then
    let fig := px_scatter filt in
    let options := column name filt in
    match st_selectbox (ui_orbit ui) options 0 with
    | None => None
    | Some selected =>
        row <- iloc0 (getitem_mask filt
                        (series_eq (column name filt) selected)) ;;
        let orb := Orbit_circular Sun {| magnitude := 1; unit := AU |} in
        let plotter_fig := OrbitFigure [(orb, selected)] in
        Some [PlotlyChart fig;
              Selectbox "Plot orbit for:" options 0;
              PlotlyChart plotter_fig]
    end
  else
    Some [Info "No asteroids match your filters."].

(** Lines 42-58: the four controls of the sidebar are read and the table is
    filtered by what they return. *)
Definition filtered (df : DataFrame) (ui : Session) : DataFrame :=
  let options := unique (column spectral_type df) in
  let selected_types := st_multiselect (ui_selected_types ui) options options in
  let min_diam :=
    st_slider (ui_min_diam ui) (slider_min min_diam_bounds)
      (slider_max min_diam_bounds) (slider_default min_diam_bounds) in
  let min_value :=
    st_slider (ui_min_value ui) (slider_min min_value_bounds)
      (slider_max min_value_bounds) (slider_default min_value_bounds) in
  let max_dv :=
    st_slider (ui_max_dv ui) (slider_min max_dv_bounds)
      (slider_max max_dv_bounds) (slider_default max_dv_bounds) in
  df_filt df selected_types min_diam min_value max_dv.

(** The script from line 35 on, run on a table [df]. *)
Definition page (df : DataFrame) (ui : Session) : option (list Element) :=
  let options := unique (column spectral_type df) in
  let filt := filtered df ui in
  plots <- orbit_section ui filt ;;
  Some ([Title "Asteroid Mining Mission Planner (MVP)";
         Caption "Filter main-belt / NEO asteroids • Rough value estimates • Basic orbit view";
         Header "Filters";
         Multiselect "Spectral Type" options options;
         Slider "Min Diameter (km)" (slider_min min_diam_bounds)
           (slider_max min_diam_bounds) (slider_default min_diam_bounds);
         Slider "Min Est. Value (billion USD)" (slider_min min_value_bounds)
           (slider_max min_value_bounds) (slider_default min_value_bounds);
         Slider "Max Delta-V to reach (km/s)" (slider_min max_dv_bounds)
           (slider_max max_dv_bounds) (slider_default max_dv_bounds);
         Subheader ("Filtered Asteroids (" ++ string_of_nat (List.length filt)
                    ++ " found)");
         Dataframe (map table_row filt);
         Subheader "Profit Estimates (rough)"]
        ++ map metric filt
        ++ [Subheader "Orbital Positions (selected asteroids)"]
        ++ plots).

(** The whole script: the table is loaded, then the page is drawn. *)
Definition app (ui : Session) : option (list Element) :=
  df <- load_asteroids ;;
  page df ui.

(** A session in which no control has been touched. *)
Definition fresh : Session := {|
  ui_selected_types := None;
  ui_min_diam := None;
  ui_min_value := None;
  ui_max_dv := None;
  ui_orbit := None
|}.

Definition is_plot (el : Element) : bool :=
  match el with
  | PlotlyChart _ => true
  | _ => false
  end.

(** The orbit traces drawn on a page. *)
Fixpoint orbit_traces (els : list Element) : list (Orbit * string) :=
  match els with
  | [] => []
  | PlotlyChart (OrbitFigure traces) :: els' => traces ++ orbit_traces els'
  | _ :: els' => orbit_traces els'
  end.

(** [l1] is [l2] with some entries dropped, the others kept in place. *)
Inductive subsequence {A : Type} : list A -> list A -> Prop :=
| sub_nil : subsequence [] []
| sub_keep x l1 l2 : subsequence l1 l2 -> subsequence (x :: l1) (x :: l2)
| sub_drop x l1 l2 : subsequence l1 l2 -> subsequence l1 (x :: l2).

(** ** The conditions of the specification *)

(** The four conditions a row has to meet, joined by "and". *)
Definition included (selected_types : list string)
  (min_diam min_value max_dv : float) (row : Row) : bool :=
  existsb (String.eqb (spectral_type row)) selected_types
  && F64.geb (diameter_km row) min_diam
  && F64.geb (est_value_billion_usd row) min_value
  && F64.leb (delta_v_km_s row) max_dv.

(** The six numeric fields of a row. *)
Definition numeric_fields (row : Row) : list float :=
  [a row; e row; i row; diameter_km row; est_value_billion_usd row;
   delta_v_km_s row].

(** The numeric fields other than the eccentricity. *)
Definition positive_fields (row : Row) : list float :=
  [a row; i row; diameter_km row; est_value_billion_usd row;
   delta_v_km_s row].

(** [x] lies between the two ends of a slider. *)
Definition within (b : float * float * float) (x : float) : bool :=
  F64.geb x (slider_min b) && F64.leb x (slider_max b).

(** A row with its three orbital elements replaced. *)
Definition with_elements (row : Row) (elements : float * float * float)
  : Row :=
  {| name := name row;
     a := fst (fst elements); e := snd (fst elements); i := snd elements;
     diameter_km := diameter_km row;
     est_value_billion_usd := est_value_billion_usd row;
     spectral_type := spectral_type row;
     delta_v_km_s := delta_v_km_s row |}.

(** The table with the orbital elements of each row replaced by
    [elements row]; every other column is left as it is. *)
Definition move_elements (elements : Row -> float * float * float)
  (row : Row) : Row :=
  with_elements row (elements row).

(** The first row of the built-in table, written out. *)
Definition psyche : Row := {|
  name := "16 Psyche"; a := 2.92; e := 0.14; i := 7.0; diameter_km := 226;
  est_value_billion_usd := 10000; spectral_type := "M"; delta_v_km_s := 5.5
|}.

(** The default value of the spectral-type control on the built-in table. *)
Definition all_types : list string := ["M"; "C"; "B"; "V"; "S"].

(** ** Reading a page back *)

(** The names in the first column of the results tables of a page. *)
Definition table_names (els : list Element) : list string :=
  flat_map (fun el =>
              match el with
              | Dataframe rows =>
                  map (fun r => fst (fst (fst (fst r)))) rows
              | _ => []
              end) els.

(** The labels of the metrics of a page, top to bottom. *)
Definition metric_labels (els : list Element) : list string :=
  flat_map (fun el =>
              match el with
              | Metric label _ _ _ => [label]
              | _ => []
              end) els.

(** The hover names of the markers of the scatter charts of a page. *)
Definition scatter_names (els : list Element) : list string :=
  flat_map (fun el =>
              match el with
              | PlotlyChart (ScatterFigure _ points) =>
                  map pt_hover_name points
              | _ => []
              end) els.

(** The options offered by the orbit selectors of a page. *)
Definition selector_options (els : list Element) : list string :=
  flat_map (fun el =>
              match el with
              | Selectbox _ options _ => options
              | _ => []
              end) els.

(** The texts of the notices of a page. *)
Definition notices (els : list Element) : list string :=
  flat_map (fun el =>
              match el with
              | Info body => [body]
              | _ => []
              end) els.

Definition is_scatter (el : Element) : bool :=
  match el with
  | PlotlyChart (ScatterFigure _ _) => true
  | _ => false
  end.

(** The three numeric tests of the filter, without the one on the type. *)
Definition thresholds_met (min_diam min_value max_dv : float) (row : Row)
  : bool :=
  F64.geb (diameter_km row) min_diam
  && F64.geb (est_value_billion_usd row) min_value
  && F64.leb (delta_v_km_s row) max_dv.

(** The elements of a page that come before the metrics, for a table [df]
    filtered down to [filt]. *)
Definition page_top (df filt : DataFrame) : list Element :=
  let options := unique (column spectral_type df) in
  [Title "Asteroid Mining Mission Planner (MVP)";
   Caption "Filter main-belt / NEO asteroids • Rough value estimates • Basic orbit view";
   Header "Filters";
   Multiselect "Spectral Type" options options;
   Slider "Min Diameter (km)" (slider_min min_diam_bounds)
     (slider_max min_diam_bounds) (slider_default min_diam_bounds);
   Slider "Min Est. Value (billion USD)" (slider_min min_value_bounds)
     (slider_max min_value_bounds) (slider_default min_value_bounds);
   Slider "Max Delta-V to reach (km/s)" (slider_min max_dv_bounds)
     (slider_max max_dv_bounds) (slider_default max_dv_bounds);
   Subheader ("Filtered Asteroids (" ++ string_of_nat (List.length filt)
              ++ " found)");
   Dataframe (map table_row filt);
   Subheader "Profit Estimates (rough)"].



Definition is_orbit_chart (el : Element) : bool :=
  match el with
  | PlotlyChart (OrbitFigure _) => true
  | _ => false
  end.

(** The fresh session with the first option of the orbit selector picked
    by hand. *)
Definition picked_first : Session := {|
  ui_selected_types := None;
  ui_min_diam := None;
  ui_min_value := None;
  ui_max_dv := None;
  ui_orbit := Some 0
|}.

(** * Properties *)

(** ** Binary64 facts *)

Lemma SFleb_trans (x y z : spec_float) :
  SFleb x y = true -> SFleb y z = true -> SFleb x z = true.
Proof.
  unfold SFleb, SFcompare.
  destruct x as [sx|sx| |sx mx ex], y as [sy|sy| |sy my ey],
           z as [sz|sz| |sz mz ez];
    try destruct sx; try destruct sy; try destruct sz; simpl; try congruence.
  all: try change (PosDef.Pos.compare_cont Eq ?p ?q) with (Pos.compare p q).
  all: repeat match goal with
       | |- context [Z.compare ?p ?q] => destruct (Z.compare_spec p q)
       | |- context [Pos.compare ?p ?q] => destruct (Pos.compare_spec p q)
       end; simpl; try congruence; try lia.
Qed.

Lemma f64_leb_trans (x y z : float) :
  F64.leb x y = true -> F64.leb y z = true -> F64.leb x z = true.
Proof. unfold F64.leb. rewrite !leb_spec. apply SFleb_trans. Qed.

Lemma f64_geb_lower (lo lo' x : float) :
  F64.leb lo lo' = true -> F64.geb x lo' = true -> F64.geb x lo = true.
Proof. unfold F64.geb. intros H1 H2. exact (f64_leb_trans _ _ _ H1 H2). Qed.

Lemma f64_leb_raise (hi hi' x : float) :
  F64.leb hi' hi = true -> F64.leb x hi' = true -> F64.leb x hi = true.
Proof. intros H1 H2. exact (f64_leb_trans _ _ _ H2 H1). Qed.

Lemma SFmul_comm (prec emax : Z) (x y : spec_float) :
  SFmul prec emax x y = SFmul prec emax y x.
Proof.
  destruct x as [sx|sx| |sx mx ex], y as [sy|sy| |sy my ey]; simpl;
    rewrite ?(xorb_comm sx sy), ?(Pos.mul_comm mx my), ?(Z.add_comm ex ey);
    reflexivity.
Qed.

Lemma f64_mul_comm (x y : float) : (x * y)%float = (y * x)%float.
Proof. apply Prim2SF_inj. rewrite !mul_spec. apply SFmul_comm. Qed.

(** ** The table *)

Lemma load_asteroids_ok : exists df, load_asteroids = Some df.
Proof. eexists. reflexivity. Qed.

(** ** The mask is the pointwise condition *)

Lemma existsb_eqb_In (x : string) (l : list string) :
  existsb (String.eqb x) l = true <-> In x l.
Proof.
  rewrite existsb_exists. split.
  - intros [y [Hy Heq]]. apply String.eqb_eq in Heq. now subst.
  - intros H. exists x. split; [exact H | apply String.eqb_refl].
Qed.

Lemma df_filt_filter (df : DataFrame) (selected_types : list string)
  (min_diam min_value max_dv : float) :
  df_filt df selected_types min_diam min_value max_dv
  = filter (included selected_types min_diam min_value max_dv) df.
Proof.
  unfold df_filt, filter_mask, series_and, isin, series_ge, series_le, column.
  induction df as [|row df IH]; [reflexivity|].
  cbn [map combine getitem_mask filter fst snd].
  rewrite IH. reflexivity.
Qed.

Lemma included_spec (selected_types : list string)
  (min_diam min_value max_dv : float) (row : Row) :
  included selected_types min_diam min_value max_dv row = true <->
  In (spectral_type row) selected_types
  /\ F64.geb (diameter_km row) min_diam = true
  /\ F64.geb (est_value_billion_usd row) min_value = true
  /\ F64.leb (delta_v_km_s row) max_dv = true.
Proof.
  unfold included. rewrite !andb_true_iff, existsb_eqb_In. tauto.
Qed.

Lemma filter_subsequence {A : Type} (f : A -> bool) (l : list A) :
  subsequence (filter f l) l.
Proof.
  induction l as [|x l IH]; simpl.
  - constructor.
  - destruct (f x); now constructor.
Qed.

Lemma filter_idempotent {A : Type} (f : A -> bool) (l : list A) :
  filter f (filter f l) = filter f l.
Proof.
  induction l as [|x l IH]; simpl; [reflexivity|].
  destruct (f x) eqn:Hx; simpl; [rewrite Hx, IH|]; auto.
Qed.

Lemma filter_length_mono {A : Type} (f g : A -> bool) (l : list A) :
  (forall x, In x l -> f x = true -> g x = true) ->
  List.length (filter f l) <= List.length (filter g l).
Proof.
  induction l as [|x l IH]; intros H; simpl; [lia|].
  assert (IH' : List.length (filter f l) <= List.length (filter g l)).
  { apply IH. intros y Hy. apply H. now right. }
  destruct (f x) eqn:Hf.
  - rewrite (H x (or_introl eq_refl) Hf). simpl. lia.
  - destruct (g x); simpl; lia.
Qed.

(** ** The filter *)

(** C1: for every accepted set of spectral types, every three thresholds
    and every record of the loaded table, the filter keeps the record if and
    only if its spectral type is accepted and its diameter is at least
    [min_diam] and its estimated value is at least [min_value] and its
    delta-v is at most [max_dv]. *)
Theorem df_filt_includes_iff (df : DataFrame) (selected_types : list string)
  (min_diam min_value max_dv : float) (row : Row) :
  load_asteroids = Some df ->
  In row df ->
  (In row (df_filt df selected_types min_diam min_value max_dv) <->
   In (spectral_type row) selected_types
   /\ F64.geb (diameter_km row) min_diam = true
   /\ F64.geb (est_value_billion_usd row) min_value = true
   /\ F64.leb (delta_v_km_s row) max_dv = true).
Proof.
  intros _ Hrow.
  rewrite df_filt_filter, filter_In, included_spec. tauto.
Qed.

Lemma df_filt_includes_iff_witness :
  exists df,
    load_asteroids = Some df
    /\ In psyche df
    /\ (In psyche (df_filt df all_types 0.5 1.0 7.0) <->
        In (spectral_type psyche) all_types
        /\ F64.geb (diameter_km psyche) 0.5 = true
        /\ F64.geb (est_value_billion_usd psyche) 1.0 = true
        /\ F64.leb (delta_v_km_s psyche) 7.0 = true).
Proof.
  eexists. split; [reflexivity|]. split; [left; reflexivity|].
  apply df_filt_includes_iff; [reflexivity | left; reflexivity].
Defined.

(** C2, as the script has it: with the default settings (types M, C, B, V,
    S; minimum diameter 0.5; minimum value 1.0; maximum delta-v 7.0) the
    built-in table is filtered down to 16 Psyche and Ryugu, in that order.
    Bennu, 1 Ceres, 4 Vesta and 433 Eros are left out; 433 Eros because its
    estimated value 0.1 is below the minimum value 1.0.  These settings are
    the ones an untouched sidebar returns. *)
Theorem default_filter_names :
  (df <- load_asteroids ;;
   Some (column name (df_filt df ["M"; "C"; "B"; "V"; "S"] 0.5 1.0 7.0)))
  = Some ["16 Psyche"; "Ryugu"]
  /\ (df <- load_asteroids ;; Some (unique (column spectral_type df)))
     = Some ["M"; "C"; "B"; "V"; "S"]
  /\ (df <- load_asteroids ;; Some (column name (filtered df fresh)))
     = Some ["16 Psyche"; "Ryugu"]
  /\ (df <- load_asteroids ;;
      Some (map (fun row => (name row, F64.geb (est_value_billion_usd row) 1.0))
              (getitem_mask df (series_eq (column name df) "433 Eros"))))
     = Some [("433 Eros", false)]
  /\ (df <- load_asteroids ;;
      Some (map (fun excluded =>
                   existsb (String.eqb excluded) (column name df)
                   && negb (existsb (String.eqb excluded)
                              (column name
                                 (df_filt df ["M"; "C"; "B"; "V"; "S"]
                                    0.5 1.0 7.0))))
              ["Bennu"; "1 Ceres"; "4 Vesta"; "433 Eros"]))
     = Some [true; true; true; true].
Proof. repeat split. Qed.

(** C2, as it is worded, fails: 433 Eros is a row of the built-in table but
    not of the table filtered with the default settings, so the filtered
    names are not 16 Psyche, Ryugu and 433 Eros. *)
Lemma default_filter_drops_eros :
  (df <- load_asteroids ;;
   Some (existsb (String.eqb "433 Eros")
           (column name (df_filt df ["M"; "C"; "B"; "V"; "S"] 0.5 1.0 7.0))))
  = Some false
  /\ (df <- load_asteroids ;;
      Some (column name (df_filt df ["M"; "C"; "B"; "V"; "S"] 0.5 1.0 7.0)))
     <> Some ["16 Psyche"; "Ryugu"; "433 Eros"].
Proof. split; [reflexivity | discriminate]. Qed.

(** C3: whatever the criteria, the filtered table is the table with some
    rows dropped: what is kept stands unchanged and in its original order,
    and nothing is repeated. *)
Theorem df_filt_subsequence (df : DataFrame) (selected_types : list string)
  (min_diam min_value max_dv : float) :
  subsequence (df_filt df selected_types min_diam min_value max_dv) df.
Proof. rewrite df_filt_filter. apply filter_subsequence. Qed.

(** C6: filtering a filtered table again with the same criteria changes
    nothing. *)
Theorem df_filt_idempotent (df : DataFrame) (selected_types : list string)
  (min_diam min_value max_dv : float) :
  df_filt (df_filt df selected_types min_diam min_value max_dv)
    selected_types min_diam min_value max_dv
  = df_filt df selected_types min_diam min_value max_dv.
Proof. rewrite !df_filt_filter. apply filter_idempotent. Qed.

(** C7: with the other criteria held fixed, raising the minimum diameter,
    raising the minimum value or lowering the maximum delta-v never makes
    the filtered table longer. *)
Theorem df_filt_monotone (df : DataFrame) (selected_types : list string)
  (min_diam min_value max_dv : float) :
  (forall min_diam', F64.leb min_diam min_diam' = true ->
     List.length (df_filt df selected_types min_diam' min_value max_dv)
     <= List.length (df_filt df selected_types min_diam min_value max_dv))
  /\ (forall min_value', F64.leb min_value min_value' = true ->
     List.length (df_filt df selected_types min_diam min_value' max_dv)
     <= List.length (df_filt df selected_types min_diam min_value max_dv))
  /\ (forall max_dv', F64.leb max_dv' max_dv = true ->
     List.length (df_filt df selected_types min_diam min_value max_dv')
     <= List.length (df_filt df selected_types min_diam min_value max_dv)).
Proof.
  repeat split; intros x Hx; rewrite !df_filt_filter;
    apply filter_length_mono; intros row _; rewrite !included_spec;
    intros (Ht & Hd & Hv & Hdv); repeat split; try assumption.
  - exact (f64_geb_lower _ _ _ Hx Hd).
  - exact (f64_geb_lower _ _ _ Hx Hv).
  - exact (f64_leb_raise _ _ _ Hx Hdv).
Qed.

Lemma df_filt_monotone_witness :
  F64.leb 0.5 300 = true
  /\ List.length (df_filt [psyche] all_types 300 1.0 7.0)
     <= List.length (df_filt [psyche] all_types 0.5 1.0 7.0).
Proof.
  split; [reflexivity|].
  apply (proj1 (df_filt_monotone [psyche] all_types 0.5 1.0 7.0)).
  reflexivity.
Defined.

(** ** Profit bands *)

(** C4: for every record the band is exactly 0.6 times and 1.4 times its
    estimated value, the products being taken in binary64 as the script
    takes them; the metric shown for the record carries that band; and for
    16 Psyche, whose value is 10000, the band is 6000 to 14000. *)
Theorem profit_band_exact :
  (forall row,
     profit_band row
     = ((0.6 * est_value_billion_usd row)%float,
        (1.4 * est_value_billion_usd row)%float))
  /\ (forall row,
        metric row
        = Metric (name row) (est_value_billion_usd row)
            (0.6 * est_value_billion_usd row)%float
            (1.4 * est_value_billion_usd row)%float)
  /\ (df <- load_asteroids ;;
      Some (map (fun row => (est_value_billion_usd row, profit_band row))
              (getitem_mask df (series_eq (column name df) "16 Psyche"))))
     = Some [(10000, (6000, 14000))%float].
Proof.
  split; [|split].
  - intros row. unfold profit_band.
    now rewrite (f64_mul_comm _ 0.6), (f64_mul_comm _ 1.4).
  - intros row. unfold metric, profit_band.
    now rewrite (f64_mul_comm _ 0.6), (f64_mul_comm _ 1.4).
  - reflexivity.
Qed.

(** ** The empty state *)

Lemma df_filt_no_types (df : DataFrame) (min_diam min_value max_dv : float) :
  df_filt df [] min_diam min_value max_dv = [].
Proof.
  rewrite df_filt_filter.
  induction df as [|row df IH]; [reflexivity | exact IH].
Qed.

(** C5: when no spectral type is accepted then, whatever the three
    thresholds (set by the user or left at their defaults) and whatever the
    table, the filtered table is empty, the script completes, its page shows
    the notice "No asteroids match your filters." and holds no chart at all,
    neither the scatter chart nor the orbit chart. *)
Theorem no_types_empty_state (df : DataFrame)
  (min_diam min_value max_dv : float)
  (user_diam user_value user_dv : option float) (orbit : option nat) :
  let ui := {| ui_selected_types := Some [];
               ui_min_diam := user_diam;
               ui_min_value := user_value;
               ui_max_dv := user_dv;
               ui_orbit := orbit |} in
  df_filt df [] min_diam min_value max_dv = []
  /\ filtered df ui = []
  /\ (exists els,
        page df ui = Some els
        /\ In (Info "No asteroids match your filters.") els
        /\ forallb (fun el => negb (is_plot el)) els = true
        /\ orbit_traces els = [])
  /\ (exists els,
        app ui = Some els
        /\ In (Info "No asteroids match your filters.") els
        /\ forallb (fun el => negb (is_plot el)) els = true
        /\ orbit_traces els = []).
Proof.
  intros ui.
  assert (Hf : forall table, filtered table ui = []).
  { intros table. unfold filtered, ui. cbn [ui_selected_types st_multiselect].
    apply df_filt_no_types. }
  assert (Hp : forall table, exists els,
             page table ui = Some els
             /\ In (Info "No asteroids match your filters.") els
             /\ forallb (fun el => negb (is_plot el)) els = true
             /\ orbit_traces els = []).
  { intros table. unfold page. rewrite Hf. cbn.
    eexists. split; [reflexivity|].
    split; [|split; reflexivity].
    do 11 right. left. reflexivity. }
  split; [apply df_filt_no_types|].
  split; [apply Hf|].
  split; [apply Hp|].
  unfold app. destruct load_asteroids_ok as [table ->]. apply Hp.
Qed.

(** ** The built-in table *)

(** C9: the loaded table has exactly six records, no two of them share a
    name, each of the six numeric fields of each record is finite, and each
    of them other than the eccentricity is greater than zero. *)
Theorem load_asteroids_invariants :
  exists df,
    load_asteroids = Some df
    /\ List.length df = 6
    /\ NoDup (column name df)
    /\ Forall (fun row =>
                 Forall (fun x => F64.isfinite x = true) (numeric_fields row)
                 /\ Forall (fun x => F64.positive x = true)
                      (positive_fields row)) df.
Proof.
  eexists. split; [reflexivity|]. split; [reflexivity|]. split.
  - cbn. repeat constructor; cbn; intros H;
      repeat (destruct H as [H|H]; [discriminate H|]); exact H.
  - repeat constructor.
Qed.

(** C10: with every spectral type of the table accepted, the two minimum
    sliders at their lower end 0.1 and the delta-v slider at its upper end
    15.0, the filter returns the whole built-in table of six records; and
    for every record the diameter lies in [0.1, 1000], the estimated value
    in [0.1, 20000] and the delta-v in [4.0, 15.0]. *)
Theorem loosest_settings_keep_all :
  exists df,
    load_asteroids = Some df
    /\ List.length df = 6
    /\ (slider_min min_diam_bounds, slider_min min_value_bounds,
        slider_max max_dv_bounds) = (0.1, 0.1, 15.0)%float
    /\ df_filt df (unique (column spectral_type df))
         (slider_min min_diam_bounds) (slider_min min_value_bounds)
         (slider_max max_dv_bounds) = df
    /\ df_filt df (unique (column spectral_type df)) 0.1 0.1 15.0 = df
    /\ Forall (fun row =>
                 within min_diam_bounds (diameter_km row) = true
                 /\ within min_value_bounds (est_value_billion_usd row) = true
                 /\ within max_dv_bounds (delta_v_km_s row) = true) df.
Proof.
  eexists. split; [reflexivity|]. split; [reflexivity|].
  split; [reflexivity|]. split; [reflexivity|]. split; [reflexivity|].
  repeat constructor.
Qed.

(** ** The orbit chart *)

Lemma orbit_traces_app (l1 l2 : list Element) :
  orbit_traces (l1 ++ l2) = orbit_traces l1 ++ orbit_traces l2.
Proof.
  induction l1 as [|el l1 IH]; [reflexivity|].
  destruct el as [| | | | | | | |fig| |]; cbn; try exact IH.
  destruct fig; cbn; [exact IH|]. now rewrite IH, app_assoc.
Qed.

Lemma orbit_traces_metrics (df : DataFrame) :
  orbit_traces (map metric df) = [].
Proof. induction df as [|row df IH]; [reflexivity | exact IH]. Qed.

(** Only the last section of the page can draw an orbit. *)
Lemma page_orbit_traces (df : DataFrame) (ui : Session) :
  option_map orbit_traces (page df ui)
  = option_map orbit_traces (orbit_section ui (filtered df ui)).
Proof.
  unfold page.
  destruct (orbit_section ui (filtered df ui)) as [plots|]; [|reflexivity].
  cbn [bind option_map]. f_equal.
  rewrite !orbit_traces_app, orbit_traces_metrics. reflexivity.
Qed.

Lemma getitem_mask_name_found (df : DataFrame) (selected : string) :
  In selected (column name df) ->
  exists row,
    iloc0 (getitem_mask df (series_eq (column name df) selected)) = Some row.
Proof.
  unfold column, series_eq.
  induction df as [|row df IH]; intros Hin; [destruct Hin|].
  cbn [map getitem_mask].
  destruct (String.eqb (name row) selected) eqn:Heq.
  - exists row. reflexivity.
  - destruct Hin as [Hin|Hin].
    + cbn in Hin. subst selected. now rewrite String.eqb_refl in Heq.
    + exact (IH Hin).
Qed.

Lemma Some_inj {A : Type} (x y : A) : Some x = Some y -> x = y.
Proof. intros H. now injection H. Qed.

Lemma st_selectbox_In (user : option nat) (options : list string)
  (index : nat) (selected : string) :
  st_selectbox user options index = Some selected -> In selected options.
Proof.
  unfold st_selectbox. destruct user as [chosen|]; intros H.
  - destruct (nth_error options chosen) as [picked|] eqn:Hpick.
    + apply Some_inj in H. subst picked. exact (nth_error_In _ _ Hpick).
    + exact (nth_error_In _ _ H).
  - exact (nth_error_In _ _ H).
Qed.

Lemma orbit_section_selected (ui : Session) (filt : DataFrame)
  (selected : string) :
  st_selectbox (ui_orbit ui) (column name filt) 0 = Some selected ->
  orbit_section ui filt
  = Some [PlotlyChart (px_scatter filt);
          Selectbox "Plot orbit for:" (column name filt) 0;
          PlotlyChart
            (OrbitFigure
               [(Orbit_circular Sun {| magnitude := 1; unit := AU |},
                 selected)])].
Proof.
  intros Hsel.
  pose proof (st_selectbox_In _ _ _ _ Hsel) as Hin.
  destruct (getitem_mask_name_found filt selected Hin) as [row Hrow].
  unfold orbit_section.
  destruct filt as [|first filt']; [destruct Hin|].
  cbn [empty negb]. rewrite Hsel, Hrow. reflexivity.
Qed.

Section Elements.

(** New orbital elements for each row. *)
Variable elements : Row -> float * float * float.

Lemma included_moved (selected_types : list string)
  (min_diam min_value max_dv : float) (row : Row) :
  included selected_types min_diam min_value max_dv
    (move_elements elements row)
  = included selected_types min_diam min_value max_dv row.
Proof. reflexivity. Qed.

Lemma filter_moved (f : Row -> bool) (df : DataFrame) :
  (forall row, f (move_elements elements row) = f row) ->
  filter f (map (move_elements elements) df)
  = map (move_elements elements) (filter f df).
Proof.
  intros Hf. induction df as [|row df IH]; [reflexivity|].
  cbn [map filter]. rewrite Hf, IH. now destruct (f row).
Qed.

Lemma column_moved {A : Type} (label : Row -> A) (df : DataFrame) :
  (forall row, label (move_elements elements row) = label row) ->
  column label (map (move_elements elements) df) = column label df.
Proof.
  intros Hl. unfold column. rewrite map_map. apply map_ext. exact Hl.
Qed.

Lemma filtered_moved (df : DataFrame) (ui : Session) :
  filtered (map (move_elements elements) df) ui
  = map (move_elements elements) (filtered df ui).
Proof.
  unfold filtered.
  rewrite (column_moved spectral_type) by reflexivity.
  rewrite !df_filt_filter. apply filter_moved. intros row. reflexivity.
Qed.

Lemma getitem_mask_moved (df : DataFrame) (mask : list bool) :
  getitem_mask (map (move_elements elements) df) mask
  = map (move_elements elements) (getitem_mask df mask).
Proof.
  revert mask. induction df as [|row df IH]; intros mask; [reflexivity|].
  destruct mask as [|b mask]; [reflexivity|].
  cbn [map getitem_mask]. rewrite IH. now destruct b.
Qed.

Lemma orbit_section_moved (ui : Session) (filt : DataFrame) :
  option_map orbit_traces
    (orbit_section ui (map (move_elements elements) filt))
  = option_map orbit_traces (orbit_section ui filt).
Proof.
  unfold orbit_section.
  rewrite (column_moved name) by reflexivity.
  replace (empty (map (move_elements elements) filt)) with (empty filt)
    by (destruct filt; reflexivity).
  destruct (negb (empty filt)); [|reflexivity].
  destruct (st_selectbox (ui_orbit ui) (column name filt) 0)
    as [selected|]; [|reflexivity].
  rewrite getitem_mask_moved.
  destruct (getitem_mask filt (series_eq (column name filt) selected))
    as [|row rows]; reflexivity.
Qed.

Lemma page_moved (df : DataFrame) (ui : Session) :
  option_map orbit_traces (page (map (move_elements elements) df) ui)
  = option_map orbit_traces (page df ui).
Proof.
  rewrite !page_orbit_traces, filtered_moved. apply orbit_section_moved.
Qed.

End Elements.

(** C8, as the script has it: whenever the orbit selector returns a name
    [selected] of the filtered table, the script completes and the only
    orbit it draws is [Orbit.circular(Sun, 1 * u.AU)], labelled [selected];
    that orbit is the same for every selection, its altitude over the
    surface of the Sun is 1 AU and so its radius is the radius of the Sun
    plus 1 AU, which is more than 1 AU; and the orbits drawn stay the same
    when the semi-major axis, the eccentricity and the inclination of the
    rows of the table are replaced by any others. *)
Theorem orbit_is_fixed (df : DataFrame) (ui : Session) :
  (forall selected,
     st_selectbox (ui_orbit ui) (column name (filtered df ui)) 0
     = Some selected ->
     In selected (column name (filtered df ui))
     /\ exists els,
          page df ui = Some els
          /\ orbit_traces els
             = [(Orbit_circular Sun {| magnitude := 1; unit := AU |},
                 selected)]
          /\ map (fun trace => altitude_m (fst trace)) (orbit_traces els)
             = [au_in_m]
          /\ map (fun trace => radius_m (fst trace)) (orbit_traces els)
             = [(R_m Sun + au_in_m)%float])
  /\ (R_m Sun + au_in_m)%float = 150293570700%float
  /\ PrimFloat.ltb au_in_m (R_m Sun + au_in_m) = true
  /\ (forall elements : Row -> float * float * float,
        option_map orbit_traces
          (page (map (move_elements elements) df) ui)
        = option_map orbit_traces (page df ui)).
Proof.
  split; [|split; [reflexivity|split; [reflexivity|]]].
  - intros selected Hsel.
    split; [exact (st_selectbox_In _ _ _ _ Hsel)|].
    pose proof (orbit_section_selected ui (filtered df ui) selected Hsel)
      as Hsec.
    pose proof (page_orbit_traces df ui) as Hpage.
    rewrite Hsec in Hpage. cbn [option_map orbit_traces app] in Hpage.
    destruct (page df ui) as [els|] eqn:Hels; [|discriminate Hpage].
    exists els. split; [reflexivity|].
    cbn [option_map] in Hpage. apply Some_inj in Hpage. rewrite Hpage.
    split; [reflexivity|]. split; reflexivity.
  - intros elements. apply page_moved.
Qed.

Lemma orbit_is_fixed_witness :
  exists df,
    load_asteroids = Some df
    /\ st_selectbox (ui_orbit fresh) (column name (filtered df fresh)) 0
       = Some "16 Psyche"
    /\ In "16 Psyche" (column name (filtered df fresh))
    /\ exists els,
         page df fresh = Some els
         /\ orbit_traces els
            = [(Orbit_circular Sun {| magnitude := 1; unit := AU |},
                "16 Psyche")]
         /\ map (fun trace => altitude_m (fst trace)) (orbit_traces els)
            = [au_in_m]
         /\ map (fun trace => radius_m (fst trace)) (orbit_traces els)
            = [(R_m Sun + au_in_m)%float].
Proof.
  eexists. split; [reflexivity|]. split; [reflexivity|].
  apply (proj1 (orbit_is_fixed _ fresh) "16 Psyche"). reflexivity.
Defined.

(** C8, as it is worded, fails: on the built-in table with every control
    left alone the orbit drawn, labelled 16 Psyche, has radius
    150293570700 m, the radius of the Sun more than the 149597870700 m of
    1 AU; it is the altitude of the orbit that is 1 AU. *)
Lemma orbit_radius_is_not_1_au :
  (df <- load_asteroids ;;
   els <- page df fresh ;;
   Some (map (fun trace =>
                (snd trace, altitude_m (fst trace), radius_m (fst trace),
                 PrimFloat.eqb (radius_m (fst trace)) au_in_m,
                 PrimFloat.ltb au_in_m (radius_m (fst trace))))
           (orbit_traces els)))
  = Some [("16 Psyche", 149597870700, 150293570700, false, true)%float]
  /\ radius_m (Orbit_circular Sun {| magnitude := 1; unit := AU |})
     <> au_in_m.
Proof.
  split; [reflexivity|].
  intros H.
  apply (f_equal (fun x => PrimFloat.ltb au_in_m x)) in H.
  vm_compute in H. discriminate H.
Qed.

(** * Further properties of the script *)

(** ** The last section of the page *)

Lemma orbit_section_nonempty (ui : Session) (filt : DataFrame) :
  filt <> [] ->
  orbit_section ui filt
  = match st_selectbox (ui_orbit ui) (column name filt) 0 with
    | None => None
    | Some selected =>
        Some [PlotlyChart (px_scatter filt);
              Selectbox "Plot orbit for:" (column name filt) 0;
              PlotlyChart
                (OrbitFigure
                   [(Orbit_circular Sun {| magnitude := 1; unit := AU |},
                     selected)])]
    end.
Proof.
  intros Hne.
  destruct (st_selectbox (ui_orbit ui) (column name filt) 0)
    as [selected|] eqn:Hsel.
  - exact (orbit_section_selected ui filt selected Hsel).
  - unfold orbit_section. destruct filt as [|first filt']; [now destruct Hne|].
    cbn [empty negb]. now rewrite Hsel.
Qed.

(** ** What a page holds *)

Lemma orbit_section_some (ui : Session) (filt : DataFrame)
  (plots : list Element) :
  orbit_section ui filt = Some plots ->
  (filt = [] /\ plots = [Info "No asteroids match your filters."])
  \/ (filt <> []
      /\ exists selected,
           st_selectbox (ui_orbit ui) (column name filt) 0 = Some selected
           /\ plots
              = [PlotlyChart (px_scatter filt);
                 Selectbox "Plot orbit for:" (column name filt) 0;
                 PlotlyChart
                   (OrbitFigure
                      [(Orbit_circular Sun {| magnitude := 1; unit := AU |},
                        selected)])]).
Proof.
  destruct filt as [|first filt'].
  - cbn. intros H. injection H as <-. now left.
  - assert (Hne : first :: filt' <> []) by discriminate.
    rewrite (orbit_section_nonempty ui _ Hne).
    destruct (st_selectbox (ui_orbit ui) (column name (first :: filt')) 0)
      as [selected|]; [|discriminate].
    intros H. injection H as <-. right. split; [exact Hne|].
    now exists selected.
Qed.

Lemma metrics_read_back (filt : DataFrame) :
  table_names (map metric filt) = []
  /\ metric_labels (map metric filt) = column name filt
  /\ scatter_names (map metric filt) = []
  /\ selector_options (map metric filt) = []
  /\ notices (map metric filt) = []
  /\ filter is_plot (map metric filt) = [].
Proof.
  induction filt as [|row filt (IH1 & IH2 & IH3 & IH4 & IH5 & IH6)].
  - now repeat split.
  - repeat split; try assumption.
    unfold metric_labels, column in *. cbn. now rewrite IH2.
Qed.

Lemma scatter_read_back (filt : DataFrame) :
  scatter_names [PlotlyChart (px_scatter filt)] = column name filt.
Proof.
  unfold scatter_names, px_scatter, column. cbn [flat_map].
  rewrite app_nil_r, map_map. reflexivity.
Qed.

Lemma table_read_back (filt : DataFrame) :
  table_names [Dataframe (map table_row filt)] = column name filt.
Proof.
  unfold table_names, column. cbn [flat_map].
  rewrite app_nil_r, map_map. reflexivity.
Qed.

Lemma page_sections (df : DataFrame) (ui : Session) :
  page df ui
  = (plots <- orbit_section ui (filtered df ui) ;;
     Some (page_top df (filtered df ui)
           ++ map metric (filtered df ui)
           ++ [Subheader "Orbital Positions (selected asteroids)"]
           ++ plots)).
Proof. reflexivity. Qed.

Lemma Some_eq {A : Type} (x y : A) : Some x = Some y -> x = y.
Proof. intros H. now injection H. Qed.

(** Opens a successful run of [page] into its sections. *)
Ltac open_page H plots Hsec :=
  rewrite page_sections in H;
  destruct (orbit_section _ (filtered _ _)) as [plots|] eqn:Hsec;
  [cbn [bind] in H; apply Some_eq in H; subst | discriminate H].

Lemma page_top_read_back (df filt : DataFrame) :
  table_names (page_top df filt) = column name filt
  /\ metric_labels (page_top df filt) = []
  /\ scatter_names (page_top df filt) = []
  /\ selector_options (page_top df filt) = []
  /\ notices (page_top df filt) = []
  /\ filter is_plot (page_top df filt) = [].
Proof.
  repeat split. apply table_read_back.
Qed.

(** X2: on every page the script completes, the results table, the metrics
    and the scatter chart list the same records in the same order, the
    orbit selector offers exactly their names, and the number in the
    "Filtered Asteroids (n found)" heading is the number of rows of the
    table. *)
Theorem page_lists_agree (df : DataFrame) (ui : Session)
  (els : list Element) :
  page df ui = Some els ->
  table_names els = column name (filtered df ui)
  /\ metric_labels els = column name (filtered df ui)
  /\ scatter_names els = column name (filtered df ui)
  /\ selector_options els = column name (filtered df ui)
  /\ In (Subheader ("Filtered Asteroids ("
                    ++ string_of_nat (List.length (table_names els))
                    ++ " found)")) els.
Proof.
  intros H. open_page H plots Hsec.
  destruct (metrics_read_back (filtered df ui))
    as (M1 & M2 & M3 & M4 & _ & _).
  destruct (page_top_read_back df (filtered df ui))
    as (T1 & T2 & T3 & T4 & _ & _).
  assert (Hplots : table_names plots = []
                   /\ metric_labels plots = []
                   /\ scatter_names plots = column name (filtered df ui)
                   /\ selector_options plots = column name (filtered df ui)).
  { destruct (orbit_section_some _ _ _ Hsec)
      as [[Hnil ->]|[_ [selected [_ ->]]]].
    - rewrite Hnil. now repeat split.
    - repeat split.
      + pose proof (scatter_read_back (filtered df ui)) as S.
        unfold scatter_names in *. cbn [flat_map] in *.
        now rewrite app_nil_r in *.
      + unfold selector_options. cbn [flat_map]. now rewrite app_nil_r. }
  destruct Hplots as (P1 & P2 & P3 & P4).
  assert (Hnames : table_names
                     (page_top df (filtered df ui)
                      ++ map metric (filtered df ui)
                      ++ [Subheader "Orbital Positions (selected asteroids)"]
                      ++ plots)
                   = column name (filtered df ui)).
  { unfold table_names in *. rewrite !flat_map_app, T1, M1, P1.
    cbn [flat_map app]. now rewrite app_nil_r. }
  split; [exact Hnames|].
  split.
  { unfold metric_labels in *. rewrite !flat_map_app, T2, M2, P2.
    cbn [flat_map app]. now rewrite app_nil_r. }
  split.
  { unfold scatter_names in *. rewrite !flat_map_app, T3, M3, P3.
    reflexivity. }
  split.
  { unfold selector_options in *. rewrite !flat_map_app, T4, M4, P4.
    reflexivity. }
  rewrite Hnames. unfold column. rewrite length_map.
  apply in_or_app. left. do 7 right. left. reflexivity.
Qed.

Lemma page_lists_agree_witness :
  exists els,
    page [psyche] fresh = Some els
    /\ table_names els = column name (filtered [psyche] fresh)
    /\ metric_labels els = column name (filtered [psyche] fresh)
    /\ scatter_names els = column name (filtered [psyche] fresh)
    /\ selector_options els = column name (filtered [psyche] fresh)
    /\ In (Subheader ("Filtered Asteroids ("
                      ++ string_of_nat (List.length (table_names els))
                      ++ " found)")) els.
Proof.
  eexists. split; [reflexivity|].
  apply (page_lists_agree [psyche] fresh). reflexivity.
Defined.

Lemma metrics_no_scatter (filt : DataFrame) :
  filter is_scatter (map metric filt) = [].
Proof. induction filt as [|row rows IH]; [reflexivity | exact IH]. Qed.

(** X3: a page the script completes holds either the notice and no chart,
    when no record passes the filter, or two charts (the scatter chart and
    the orbit chart) and no notice, when some record does. *)
Theorem page_charts_or_notice (df : DataFrame) (ui : Session)
  (els : list Element) :
  page df ui = Some els ->
  (filtered df ui = []
   /\ filter is_plot els = []
   /\ notices els = ["No asteroids match your filters."])
  \/ (filtered df ui <> []
      /\ List.length (filter is_plot els) = 2
      /\ List.length (filter is_scatter els) = 1
      /\ notices els = []).
Proof.
  intros H. open_page H plots Hsec.
  destruct (metrics_read_back (filtered df ui))
    as (_ & _ & _ & _ & M5 & M6).
  destruct (page_top_read_back df (filtered df ui))
    as (_ & _ & _ & _ & T5 & T6).
  pose proof (metrics_no_scatter (filtered df ui)) as M7.
  unfold notices in *. rewrite !flat_map_app, !filter_app, T5, T6, M5, M6, M7.
  destruct (orbit_section_some _ _ _ Hsec)
    as [[Hnil ->]|[Hne [selected [_ ->]]]].
  - left. now repeat split.
  - right. now repeat split.
Qed.

Lemma page_charts_or_notice_witness :
  exists els,
    page [psyche] fresh = Some els
    /\ ((filtered [psyche] fresh = []
         /\ filter is_plot els = []
         /\ notices els = ["No asteroids match your filters."])
        \/ (filtered [psyche] fresh <> []
            /\ List.length (filter is_plot els) = 2
            /\ List.length (filter is_scatter els) = 1
            /\ notices els = [])).
Proof.
  eexists. split; [reflexivity|].
  apply (page_charts_or_notice [psyche] fresh). reflexivity.
Defined.

(** ** The default orbit *)

Lemma page_orbit_selected (df : DataFrame) (ui : Session)
  (selected : string) :
  st_selectbox (ui_orbit ui) (column name (filtered df ui)) 0
  = Some selected ->
  exists els,
    page df ui = Some els
    /\ orbit_traces els
       = [(Orbit_circular Sun {| magnitude := 1; unit := AU |}, selected)].
Proof.
  intros Hsel.
  pose proof (orbit_section_selected ui (filtered df ui) selected Hsel)
    as Hsec.
  rewrite page_sections, Hsec. cbn [bind].
  eexists. split; [reflexivity|].
  rewrite !orbit_traces_app, orbit_traces_metrics. reflexivity.
Qed.

(** X4: when some record passes the filter and the orbit selector is left
    alone, the script completes and the orbit chart is labelled with the
    name of the first record of the filtered table. *)
Theorem default_orbit_is_first (df : DataFrame) (ui : Session)
  (row : Row) (rest : DataFrame) :
  filtered df ui = row :: rest ->
  ui_orbit ui = None ->
  exists els,
    page df ui = Some els
    /\ orbit_traces els
       = [(Orbit_circular Sun {| magnitude := 1; unit := AU |}, name row)].
Proof.
  intros Hfilt Hnone. apply page_orbit_selected.
  rewrite Hfilt, Hnone. reflexivity.
Qed.

Lemma default_orbit_is_first_witness :
  filtered [psyche] fresh = [psyche]
  /\ ui_orbit fresh = None
  /\ exists els,
       page [psyche] fresh = Some els
       /\ orbit_traces els
          = [(Orbit_circular Sun {| magnitude := 1; unit := AU |},
              name psyche)].
Proof.
  split; [reflexivity|]. split; [reflexivity|].
  apply (default_orbit_is_first [psyche] fresh psyche []); reflexivity.
Defined.

(** ** [unique] and the default of the spectral-type control *)

Lemma unique_from_In (seen s : list string) (x : string) :
  In x (unique_from seen s) <-> In x s /\ ~ In x seen.
Proof.
  revert seen. induction s as [|y s IH]; intros seen; cbn.
  - tauto.
  - destruct (existsb (String.eqb y) seen) eqn:Hy.
    + apply existsb_eqb_In in Hy. rewrite IH. split.
      * intros [H1 H2]. tauto.
      * intros [[->|H1] H2]; [contradiction | tauto].
    + assert (Hn : ~ In y seen).
      { intros Hin. apply existsb_eqb_In in Hin. congruence. }
      cbn. rewrite IH. cbn. split.
      * intros [->|[H1 H2]]; [tauto|]. split; [tauto|]. tauto.
      * intros [[->|H1] H2]; [tauto|].
        destruct (string_dec y x) as [->|Hyx]; [tauto|]. right. tauto.
Qed.

Lemma unique_from_NoDup (seen s : list string) :
  NoDup (unique_from seen s).
Proof.
  revert seen. induction s as [|y s IH]; intros seen; cbn.
  - constructor.
  - destruct (existsb (String.eqb y) seen); [apply IH|].
    constructor; [|apply IH].
    rewrite unique_from_In. cbn. tauto.
Qed.

Lemma unique_from_subsequence (seen s : list string) :
  subsequence (unique_from seen s) s.
Proof.
  revert seen. induction s as [|y s IH]; intros seen; cbn.
  - constructor.
  - destruct (existsb (String.eqb y) seen); constructor; apply IH.
Qed.

(** X5: [unique] keeps exactly the values of the column, each once, in the
    order of the column; so the options of the spectral-type control have
    no duplicate and cover every type of the table. *)
Theorem unique_spec (s : list string) :
  NoDup (unique s)
  /\ (forall x, In x (unique s) <-> In x s)
  /\ subsequence (unique s) s.
Proof.
  unfold unique. split; [apply unique_from_NoDup|].
  split; [|apply unique_from_subsequence].
  intros x. rewrite unique_from_In. cbn. tauto.
Qed.

(** X6: while the spectral-type control is left alone no record is rejected
    for its type: the filtered table is the table filtered by the three
    thresholds only. *)
Theorem default_types_accept_all (df : DataFrame) (ui : Session) :
  ui_selected_types ui = None ->
  filtered df ui
  = filter (thresholds_met
              (st_slider (ui_min_diam ui) (slider_min min_diam_bounds)
                 (slider_max min_diam_bounds)
                 (slider_default min_diam_bounds))
              (st_slider (ui_min_value ui) (slider_min min_value_bounds)
                 (slider_max min_value_bounds)
                 (slider_default min_value_bounds))
              (st_slider (ui_max_dv ui) (slider_min max_dv_bounds)
                 (slider_max max_dv_bounds)
                 (slider_default max_dv_bounds))) df.
Proof.
  intros Hnone. unfold filtered. rewrite Hnone. cbn [st_multiselect].
  rewrite df_filt_filter. apply filter_ext_in. intros row Hrow.
  unfold included, thresholds_met.
  assert (Ht : existsb (String.eqb (spectral_type row))
                 (unique (column spectral_type df)) = true).
  { apply existsb_eqb_In. unfold unique. apply unique_from_In.
    split; [|intros []]. unfold column. now apply in_map. }
  now rewrite Ht.
Qed.

Lemma default_types_accept_all_witness :
  ui_selected_types fresh = None
  /\ filtered [psyche] fresh = filter (thresholds_met 0.5 1.0 7.0) [psyche].
Proof.
  split; [reflexivity|].
  apply (default_types_accept_all [psyche] fresh). reflexivity.
Defined.

(** ** More on the filter *)

Lemma filter_subsequence_mono {A : Type} (f g : A -> bool) (l : list A) :
  (forall x, In x l -> f x = true -> g x = true) ->
  subsequence (filter f l) (filter g l).
Proof.
  induction l as [|x l IH]; intros H; cbn; [constructor|].
  assert (IH' : subsequence (filter f l) (filter g l)).
  { apply IH. intros y Hy. apply H. now right. }
  destruct (f x) eqn:Hf.
  - rewrite (H x (or_introl eq_refl) Hf). now constructor.
  - destruct (g x); [now constructor | exact IH'].
Qed.

Lemma subsequence_length {A : Type} (l1 l2 : list A) :
  subsequence l1 l2 -> List.length l1 <= List.length l2.
Proof. induction 1; cbn; lia. Qed.

(** X7: accepting more spectral types, with the thresholds unchanged, only
    adds records: the table filtered with the smaller set of types is the
    other one with rows dropped, so it is no longer. *)
Theorem df_filt_more_types (df : DataFrame)
  (selected_types selected_types' : list string)
  (min_diam min_value max_dv : float) :
  incl selected_types selected_types' ->
  subsequence (df_filt df selected_types min_diam min_value max_dv)
    (df_filt df selected_types' min_diam min_value max_dv)
  /\ List.length (df_filt df selected_types min_diam min_value max_dv)
     <= List.length (df_filt df selected_types' min_diam min_value max_dv).
Proof.
  intros Hincl.
  assert (Hsub : subsequence
                   (df_filt df selected_types min_diam min_value max_dv)
                   (df_filt df selected_types' min_diam min_value max_dv)).
  { rewrite !df_filt_filter. apply filter_subsequence_mono.
    intros row _. rewrite !included_spec. intros (Ht & Hrest).
    split; [exact (Hincl _ Ht) | exact Hrest]. }
  split; [exact Hsub | exact (subsequence_length _ _ Hsub)].
Qed.

Lemma df_filt_more_types_witness :
  incl ["M"] all_types
  /\ subsequence (df_filt [psyche] ["M"] 0.5 1.0 7.0)
       (df_filt [psyche] all_types 0.5 1.0 7.0)
  /\ List.length (df_filt [psyche] ["M"] 0.5 1.0 7.0)
     <= List.length (df_filt [psyche] all_types 0.5 1.0 7.0).
Proof.
  assert (H : incl ["M"] all_types).
  { intros t [<-|[]]. left. reflexivity. }
  split; [exact H|].
  exact (df_filt_more_types [psyche] ["M"] all_types 0.5 1.0 7.0 H).
Defined.

(** X8: the filter looks only at which types are accepted, not at the order
    in which they were picked nor at repetitions: two lists with the same
    members give the same filtered table. *)
Theorem df_filt_types_as_set (df : DataFrame)
  (selected_types selected_types' : list string)
  (min_diam min_value max_dv : float) :
  (forall t, In t selected_types <-> In t selected_types') ->
  df_filt df selected_types min_diam min_value max_dv
  = df_filt df selected_types' min_diam min_value max_dv.
Proof.
  intros Hsame. rewrite !df_filt_filter. apply filter_ext. intros row.
  destruct (included selected_types' min_diam min_value max_dv row) eqn:H'.
  - apply included_spec in H'. apply included_spec.
    destruct H' as (Ht & Hrest). split; [now apply Hsame | exact Hrest].
  - destruct (included selected_types min_diam min_value max_dv row) eqn:H;
      [|reflexivity].
    apply included_spec in H. destruct H as (Ht & Hrest).
    rewrite <- H'. symmetry. apply included_spec.
    split; [now apply Hsame | exact Hrest].
Qed.

Lemma df_filt_types_as_set_witness :
  (forall t, In t ["M"; "C"] <-> In t ["C"; "M"; "C"])
  /\ df_filt [psyche] ["M"; "C"] 0.5 1.0 7.0
     = df_filt [psyche] ["C"; "M"; "C"] 0.5 1.0 7.0.
Proof.
  assert (H : forall t, In t ["M"; "C"] <-> In t ["C"; "M"; "C"]).
  { intros t. cbn. tauto. }
  split; [exact H|].
  exact (df_filt_types_as_set [psyche] ["M"; "C"] ["C"; "M"; "C"]
           0.5 1.0 7.0 H).
Defined.

Lemma filter_filter_and {A : Type} (f g : A -> bool) (l : list A) :
  filter g (filter f l) = filter (fun x => f x && g x) l.
Proof.
  induction l as [|x l IH]; [reflexivity|].
  cbn. destruct (f x); cbn; [destruct (g x)|]; now rewrite IH.
Qed.

(** X9: two filters applied one after the other keep exactly the records
    that meet both sets of criteria, whichever filter comes first. *)
Theorem df_filt_compose (df : DataFrame) (types1 types2 : list string)
  (min_diam1 min_value1 max_dv1 min_diam2 min_value2 max_dv2 : float) :
  df_filt (df_filt df types1 min_diam1 min_value1 max_dv1)
    types2 min_diam2 min_value2 max_dv2
  = filter (fun row =>
              included types1 min_diam1 min_value1 max_dv1 row
              && included types2 min_diam2 min_value2 max_dv2 row) df
  /\ df_filt (df_filt df types1 min_diam1 min_value1 max_dv1)
       types2 min_diam2 min_value2 max_dv2
     = df_filt (df_filt df types2 min_diam2 min_value2 max_dv2)
         types1 min_diam1 min_value1 max_dv1.
Proof.
  rewrite !df_filt_filter, !filter_filter_and. split; [reflexivity|].
  apply filter_ext. intros row. apply andb_comm.
Qed.

(** ** Missing numbers *)

Lemma SFcompare_refl (x : spec_float) :
  x <> S754_nan -> SFcompare x x = Some Eq.
Proof.
  destruct x as [s|s| |s m ex]; intros H; cbn; try destruct s;
    try reflexivity; [now destruct H| |];
    rewrite Z.compare_refl;
    change (PosDef.Pos.compare_cont Eq m m) with (Pos.compare m m);
    now rewrite Pos.compare_refl.
Qed.

Lemma is_nan_Prim2SF (x : float) :
  PrimFloat.is_nan x = true -> Prim2SF x = S754_nan.
Proof.
  unfold PrimFloat.is_nan. rewrite FloatAxioms.eqb_spec. unfold SFeqb. intros H.
  destruct (Prim2SF x) as [s|s| |s m ex] eqn:Hx; [| |reflexivity|];
    rewrite SFcompare_refl in H by discriminate; discriminate H.
Qed.

Lemma SFcompare_nan_r (x : spec_float) : SFcompare x S754_nan = None.
Proof. destruct x as [s|s| |s m ex]; reflexivity. Qed.

Lemma f64_nan_compares (x y : float) :
  PrimFloat.is_nan x = true ->
  F64.leb x y = false /\ F64.leb y x = false
  /\ F64.geb x y = false /\ F64.geb y x = false.
Proof.
  intros H. apply is_nan_Prim2SF in H.
  unfold F64.geb, F64.leb. rewrite !leb_spec, H. unfold SFleb.
  rewrite SFcompare_nan_r. cbn. tauto.
Qed.

(** X10: a record whose diameter, estimated value or delta-v is NaN (a
    missing number in pandas) passes no filter, whatever the criteria; and
    a threshold that is NaN lets no record pass. *)
Theorem df_filt_nan (df : DataFrame) (selected_types : list string)
  (min_diam min_value max_dv : float) :
  (forall row,
     PrimFloat.is_nan (diameter_km row)
     || PrimFloat.is_nan (est_value_billion_usd row)
     || PrimFloat.is_nan (delta_v_km_s row) = true ->
     ~ In row (df_filt df selected_types min_diam min_value max_dv))
  /\ (PrimFloat.is_nan min_diam || PrimFloat.is_nan min_value
      || PrimFloat.is_nan max_dv = true ->
      df_filt df selected_types min_diam min_value max_dv = []).
Proof.
  split.
  - intros row Hnan Hin.
    rewrite df_filt_filter, filter_In, included_spec in Hin.
    destruct Hin as (_ & _ & Hd & Hv & Hdv).
    rewrite !orb_true_iff in Hnan. destruct Hnan as [[Hn|Hn]|Hn].
    + destruct (f64_nan_compares _ min_diam Hn) as (_ & _ & Hg & _).
      congruence.
    + destruct (f64_nan_compares _ min_value Hn) as (_ & _ & Hg & _).
      congruence.
    + destruct (f64_nan_compares _ max_dv Hn) as (Hl & _). congruence.
  - intros Hnan. rewrite df_filt_filter.
    induction df as [|row df IH]; [reflexivity|].
    cbn [filter]. rewrite IH.
    assert (Hrow : included selected_types min_diam min_value max_dv row
                   = false).
    { unfold included. rewrite !orb_true_iff in Hnan.
      destruct Hnan as [[Hn|Hn]|Hn].
      - destruct (f64_nan_compares _ (diameter_km row) Hn)
          as (_ & _ & _ & ->). now rewrite andb_false_r.
      - destruct (f64_nan_compares _ (est_value_billion_usd row) Hn)
          as (_ & _ & _ & ->). now rewrite andb_false_r.
      - destruct (f64_nan_compares _ (delta_v_km_s row) Hn)
          as (_ & -> & _). now rewrite andb_false_r. }
    now rewrite Hrow.
Qed.

Lemma df_filt_nan_witness :
  PrimFloat.is_nan PrimFloat.nan || PrimFloat.is_nan 1.0
  || PrimFloat.is_nan 7.0 = true
  /\ df_filt [psyche] all_types PrimFloat.nan 1.0 7.0 = [].
Proof.
  split; [reflexivity|].
  apply (proj2 (df_filt_nan [psyche] all_types PrimFloat.nan 1.0 7.0)).
  reflexivity.
Defined.

(** ** Building the table *)

Lemma zip_rows_columns (cn : list string) :
  forall (ca ce ci cd cv : list float) (ct : list string)
         (cdv : list float) (df : DataFrame),
    zip_rows cn ca ce ci cd cv ct cdv = Some df ->
    column name df = cn /\ column a df = ca /\ column e df = ce
    /\ column i df = ci /\ column diameter_km df = cd
    /\ column est_value_billion_usd df = cv
    /\ column spectral_type df = ct /\ column delta_v_km_s df = cdv.
Proof.
  unfold column.
  induction cn as [|n0 cn IH]; intros ca ce ci cd cv ct cdv df;
    destruct ca, ce, ci, cd, cv, ct, cdv; cbn [zip_rows];
    try discriminate.
  - intros H. apply Some_eq in H. subst df. now repeat split.
  - destruct (zip_rows cn ca ce ci cd cv ct cdv) as [rest|] eqn:Hrest;
      cbn [bind]; [|discriminate].
    intros H. apply Some_eq in H. subst df.
    destruct (IH _ _ _ _ _ _ _ _ Hrest)
      as (H1 & H2 & H3 & H4 & H5 & H6 & H7 & H8).
    cbn. now rewrite H1, H2, H3, H4, H5, H6, H7, H8.
Qed.

Lemma zip_rows_some_iff (cn : list string) :
  forall (ca ce ci cd cv : list float) (ct : list string)
         (cdv : list float),
    (exists df, zip_rows cn ca ce ci cd cv ct cdv = Some df) <->
    List.length ca = List.length cn /\ List.length ce = List.length cn
    /\ List.length ci = List.length cn /\ List.length cd = List.length cn
    /\ List.length cv = List.length cn /\ List.length ct = List.length cn
    /\ List.length cdv = List.length cn.
Proof.
  induction cn as [|n0 cn IH]; intros ca ce ci cd cv ct cdv;
    destruct ca, ce, ci, cd, cv, ct, cdv; cbn [zip_rows List.length];
    try (split; [intros [df Hdf]; discriminate Hdf | intros H; lia]).
  - split; [now repeat split | intros _; now eexists].
  - specialize (IH ca ce ci cd cv ct cdv).
    destruct (zip_rows cn ca ce ci cd cv ct cdv) as [rest|]; cbn [bind].
    + split; [intros _ | intros _; now eexists].
      assert (Hex : exists df, Some rest = Some df) by now eexists.
      apply IH in Hex. lia.
    + split; [intros [df Hdf]; discriminate Hdf|].
      intros H. assert (Hlen : List.length ca = List.length cn
                               /\ List.length ce = List.length cn
                               /\ List.length ci = List.length cn
                               /\ List.length cd = List.length cn
                               /\ List.length cv = List.length cn
                               /\ List.length ct = List.length cn
                               /\ List.length cdv = List.length cn) by lia.
      apply IH in Hlen. destruct Hlen as [df Hdf]. discriminate Hdf.
Qed.

(** X11: [pd.DataFrame] succeeds exactly when the eight columns of the dict
    have one length, and then each column read back from the table is the
    list the dict held under that label, so the table has as many rows as
    the columns have entries. *)
Theorem pd_DataFrame_round_trip (d : Columns) :
  ((exists df, pd_DataFrame d = Some df) <->
   List.length (col_a d) = List.length (col_name d)
   /\ List.length (col_e d) = List.length (col_name d)
   /\ List.length (col_i d) = List.length (col_name d)
   /\ List.length (col_diameter_km d) = List.length (col_name d)
   /\ List.length (col_est_value_billion_usd d) = List.length (col_name d)
   /\ List.length (col_spectral_type d) = List.length (col_name d)
   /\ List.length (col_delta_v_km_s d) = List.length (col_name d))
  /\ (forall df,
        pd_DataFrame d = Some df ->
        column name df = col_name d
        /\ column a df = col_a d
        /\ column e df = col_e d
        /\ column i df = col_i d
        /\ column diameter_km df = col_diameter_km d
        /\ column est_value_billion_usd df = col_est_value_billion_usd d
        /\ column spectral_type df = col_spectral_type d
        /\ column delta_v_km_s df = col_delta_v_km_s d
        /\ List.length df = List.length (col_name d)).
Proof.
  unfold pd_DataFrame. split; [apply zip_rows_some_iff|].
  intros df Hdf.
  destruct (zip_rows_columns _ _ _ _ _ _ _ _ _ Hdf)
    as (H1 & H2 & H3 & H4 & H5 & H6 & H7 & H8).
  repeat split; try assumption.
  rewrite <- H1. unfold column. now rewrite length_map.
Qed.

Lemma pd_DataFrame_round_trip_witness :
  exists df,
    pd_DataFrame data = Some df
    /\ column name df = col_name data
       /\ column a df = col_a data
       /\ column e df = col_e data
       /\ column i df = col_i data
       /\ column diameter_km df = col_diameter_km data
       /\ column est_value_billion_usd df = col_est_value_billion_usd data
       /\ column spectral_type df = col_spectral_type data
       /\ column delta_v_km_s df = col_delta_v_km_s data
       /\ List.length df = List.length (col_name data).
Proof.
  eexists. split; [reflexivity|].
  apply (proj2 (pd_DataFrame_round_trip data)). reflexivity.
Defined.

(** ** Looking a record up by name *)

Lemma getitem_mask_by_name (df : DataFrame) (selected : string) :
  getitem_mask df (series_eq (column name df) selected)
  = filter (fun row => String.eqb (name row) selected) df.
Proof.
  unfold series_eq, column.
  induction df as [|row df IH]; [reflexivity|].
  cbn [map getitem_mask filter]. now rewrite IH.
Qed.

Lemma NoDup_names_filter (f : Row -> bool) (df : DataFrame) :
  NoDup (column name df) -> NoDup (column name (filter f df)).
Proof.
  unfold column. induction df as [|row df IH]; intros H; [exact H|].
  cbn in *. rewrite NoDup_cons_iff in H. destruct H as [Hn Hd].
  destruct (f row); [|now apply IH].
  cbn. constructor; [|now apply IH].
  intros Hin. apply Hn. apply in_map_iff in Hin.
  destruct Hin as [r [Hr Hin]]. apply filter_In in Hin.
  apply in_map_iff. exists r. tauto.
Qed.

Lemma filter_by_name_unique (df : DataFrame) (selected : string) :
  NoDup (column name df) ->
  In selected (column name df) ->
  exists row,
    filter (fun r => String.eqb (name r) selected) df = [row]
    /\ name row = selected /\ In row df.
Proof.
  unfold column. induction df as [|first df IH]; intros Hnd Hin;
    [destruct Hin|].
  cbn in Hnd. rewrite NoDup_cons_iff in Hnd. destruct Hnd as [Hn Hd].
  cbn [filter]. destruct (String.eqb (name first) selected) eqn:Heq.
  - apply String.eqb_eq in Heq. exists first.
    split; [|split; [exact Heq | now left]].
    f_equal. rewrite <- Heq.
    assert (Hnone : forall r, In r df ->
                      String.eqb (name r) (name first) = false).
    { intros r Hr. apply String.eqb_neq. intros Hsame. apply Hn.
      rewrite <- Hsame. now apply in_map. }
    clear -Hnone. induction df as [|r df IH]; [reflexivity|].
    cbn. rewrite (Hnone r (or_introl eq_refl)). apply IH.
    intros r' Hr'. apply Hnone. now right.
  - destruct Hin as [Hin|Hin].
    + cbn in Hin. rewrite Hin, String.eqb_refl in Heq. discriminate Heq.
    + destruct (IH Hd Hin) as [row (H1 & H2 & H3)].
      exists row. split; [exact H1|]. split; [exact H2 | now right].
Qed.

(** X12: when the names of the table are distinct, the lookup of line 100
    by the name picked in the orbit selector finds exactly one row of the
    filtered table: it bears that name, is a row of the original table and
    meets the criteria. *)
Theorem selected_row_unique (df : DataFrame) (selected_types : list string)
  (min_diam min_value max_dv : float) (selected : string) :
  let filt := df_filt df selected_types min_diam min_value max_dv in
  NoDup (column name df) ->
  In selected (column name filt) ->
  exists row,
    getitem_mask filt (series_eq (column name filt) selected) = [row]
    /\ iloc0 (getitem_mask filt (series_eq (column name filt) selected))
       = Some row
    /\ name row = selected
    /\ In row df
    /\ included selected_types min_diam min_value max_dv row = true.
Proof.
  intros filt Hnd Hin.
  assert (Hnd' : NoDup (column name filt)).
  { unfold filt. rewrite df_filt_filter. now apply NoDup_names_filter. }
  destruct (filter_by_name_unique filt selected Hnd' Hin)
    as [row (H1 & H2 & H3)].
  exists row. rewrite getitem_mask_by_name, H1.
  split; [reflexivity|]. split; [reflexivity|]. split; [exact H2|].
  unfold filt in H3. rewrite df_filt_filter, filter_In in H3. exact H3.
Qed.

Lemma selected_row_unique_witness :
  NoDup (column name [psyche])
  /\ In "16 Psyche" (column name (df_filt [psyche] all_types 0.5 1.0 7.0))
  /\ exists row,
       getitem_mask (df_filt [psyche] all_types 0.5 1.0 7.0)
         (series_eq (column name (df_filt [psyche] all_types 0.5 1.0 7.0))
            "16 Psyche") = [row]
       /\ iloc0
            (getitem_mask (df_filt [psyche] all_types 0.5 1.0 7.0)
               (series_eq
                  (column name (df_filt [psyche] all_types 0.5 1.0 7.0))
                  "16 Psyche")) = Some row
       /\ name row = "16 Psyche"
       /\ In row [psyche]
       /\ included all_types 0.5 1.0 7.0 row = true.
Proof.
  assert (Hnd : NoDup (column name [psyche])).
  { repeat constructor. intros []. }
  assert (Hin : In "16 Psyche"
                  (column name (df_filt [psyche] all_types 0.5 1.0 7.0))).
  { left. reflexivity. }
  split; [exact Hnd|]. split; [exact Hin|].
  exact (selected_row_unique [psyche] all_types 0.5 1.0 7.0 "16 Psyche"
           Hnd Hin).
Defined.

(** ** What the orbital elements reach *)

Lemma page_top_moved (elements : Row -> float * float * float)
  (df filt : DataFrame) :
  page_top (map (move_elements elements) df)
    (map (move_elements elements) filt)
  = page_top df filt.
Proof.
  unfold page_top.
  rewrite (column_moved elements spectral_type) by reflexivity.
  rewrite length_map, map_map. reflexivity.
Qed.

Lemma metrics_moved (elements : Row -> float * float * float)
  (filt : DataFrame) :
  map metric (map (move_elements elements) filt) = map metric filt.
Proof. rewrite map_map. reflexivity. Qed.

Lemma orbit_section_off_scatter (elements : Row -> float * float * float)
  (ui : Session) (filt : DataFrame) :
  option_map (filter (fun el => negb (is_scatter el)))
    (orbit_section ui (map (move_elements elements) filt))
  = option_map (filter (fun el => negb (is_scatter el)))
      (orbit_section ui filt).
Proof.
  destruct filt as [|first filt']; [reflexivity|].
  rewrite !orbit_section_nonempty by discriminate.
  rewrite (column_moved elements name) by reflexivity.
  destruct (st_selectbox (ui_orbit ui) (column name (first :: filt')) 0);
    reflexivity.
Qed.

(** X13: the semi-major axis, eccentricity and inclination of the records
    reach nothing but the scatter chart: replacing them by any others
    leaves the script raising or not as before and leaves every other
    element of the page (controls, heading, table, metrics, selector, orbit
    chart, notice) the same. *)
Theorem elements_reach_only_scatter
  (elements : Row -> float * float * float) (df : DataFrame)
  (ui : Session) :
  option_map (filter (fun el => negb (is_scatter el)))
    (page (map (move_elements elements) df) ui)
  = option_map (filter (fun el => negb (is_scatter el))) (page df ui).
Proof.
  rewrite !page_sections, filtered_moved, page_top_moved, metrics_moved.
  pose proof (orbit_section_off_scatter elements ui (filtered df ui)) as H.
  destruct (orbit_section ui (map (move_elements elements) (filtered df ui)))
    as [plots'|];
    destruct (orbit_section ui (filtered df ui)) as [plots|];
    cbn [option_map bind] in *; try discriminate H; [|reflexivity].
  apply Some_eq in H. f_equal. rewrite !filter_app. now rewrite H.
Qed.

(** ** The mask and the table *)

Lemma series_and_length (m1 m2 : list bool) :
  List.length (series_and m1 m2)
  = Nat.min (List.length m1) (List.length m2).
Proof. unfold series_and. now rewrite length_map, length_combine. Qed.

Lemma getitem_mask_count (df : DataFrame) (mask : list bool) :
  List.length df = List.length mask ->
  List.length (getitem_mask df mask) = count_occ bool_dec mask true.
Proof.
  revert mask. induction df as [|row df IH]; intros mask H;
    destruct mask as [|b mask]; try discriminate H; [reflexivity|].
  cbn in H. injection H as H. cbn [getitem_mask count_occ].
  destruct b; cbn; rewrite (IH _ H); reflexivity.
Qed.

(** X14: the mask of lines 54-57 has one entry per row of the table, so the
    boolean indexing of line 53 never meets a mask of the wrong length; and
    the filtered table has as many rows as the mask has [True] entries, at
    most as many as the table. *)
Theorem filter_mask_aligned (df : DataFrame) (selected_types : list string)
  (min_diam min_value max_dv : float) :
  List.length (filter_mask df selected_types min_diam min_value max_dv)
  = List.length df
  /\ List.length (df_filt df selected_types min_diam min_value max_dv)
     = count_occ bool_dec
         (filter_mask df selected_types min_diam min_value max_dv) true
  /\ List.length (df_filt df selected_types min_diam min_value max_dv)
     <= List.length df.
Proof.
  assert (Hlen : List.length
                   (filter_mask df selected_types min_diam min_value max_dv)
                 = List.length df).
  { unfold filter_mask, isin, series_ge, series_le, column.
    rewrite !series_and_length, !length_map. lia. }
  split; [exact Hlen|]. split.
  - unfold df_filt. apply getitem_mask_count. now rewrite Hlen.
  - rewrite df_filt_filter. apply filter_length_le.
Qed.

(** ** The table and the metrics *)





(** ** What the orbit selector reaches *)

(** X16: the choice made in the orbit selector reaches nothing but the
    orbit chart: two runs that differ only in that choice, and both
    complete, show the same page apart from the orbit chart. *)
Theorem orbit_pick_reaches_only_orbit (df : DataFrame) (ui ui' : Session)
  (els els' : list Element) :
  ui_selected_types ui = ui_selected_types ui' ->
  ui_min_diam ui = ui_min_diam ui' ->
  ui_min_value ui = ui_min_value ui' ->
  ui_max_dv ui = ui_max_dv ui' ->
  page df ui = Some els ->
  page df ui' = Some els' ->
  filter (fun el => negb (is_orbit_chart el)) els
  = filter (fun el => negb (is_orbit_chart el)) els'.
Proof.
  intros H1 H2 H3 H4 Hp Hp'.
  assert (Hf : filtered df ui' = filtered df ui).
  { unfold filtered. now rewrite H1, H2, H3, H4. }
  rewrite page_sections in Hp, Hp'. rewrite Hf in Hp'.
  destruct (orbit_section ui (filtered df ui)) as [plots|] eqn:Hsec;
    [|discriminate Hp].
  destruct (orbit_section ui' (filtered df ui)) as [plots'|] eqn:Hsec';
    [|discriminate Hp'].
  cbn [bind] in Hp, Hp'. apply Some_eq in Hp. apply Some_eq in Hp'.
  subst els els'. rewrite !filter_app. do 3 f_equal.
  destruct (orbit_section_some _ _ _ Hsec)
    as [[Hnil ->]|[Hne [selected [_ ->]]]];
    destruct (orbit_section_some _ _ _ Hsec')
      as [[Hnil' ->]|[Hne' [selected' [_ ->]]]];
    try reflexivity; contradiction.
Qed.

Lemma orbit_pick_reaches_only_orbit_witness :
  exists els els',
    ui_selected_types fresh = ui_selected_types picked_first
    /\ ui_min_diam fresh = ui_min_diam picked_first
    /\ ui_min_value fresh = ui_min_value picked_first
    /\ ui_max_dv fresh = ui_max_dv picked_first
    /\ page [psyche] fresh = Some els
    /\ page [psyche] picked_first = Some els'
    /\ filter (fun el => negb (is_orbit_chart el)) els
       = filter (fun el => negb (is_orbit_chart el)) els'.
Proof.
  eexists. eexists.
  split; [reflexivity|]. split; [reflexivity|]. split; [reflexivity|].
  split; [reflexivity|]. split; [reflexivity|]. split; [reflexivity|].
  apply (orbit_pick_reaches_only_orbit [psyche] fresh picked_first);
    reflexivity.
Defined.

(** ** The lookup of line 100 *)

(** X1: the lookup [df_filt[df_filt['name'] == selected].iloc[0]] finds a
    row exactly when [selected] is a name of the filtered table, and the
    row it returns is then the first one bearing that name (the names need
    not be distinct); for any other [selected] no row matches and
    [.iloc[0]] raises. *)
Theorem selected_row_lookup (filt : DataFrame) (selected : string) :
  (In selected (column name filt) ->
   exists before row after,
     filt = before ++ row :: after
     /\ name row = selected
     /\ ~ In selected (column name before)
     /\ iloc0 (getitem_mask filt (series_eq (column name filt) selected))
        = Some row)
  /\ (~ In selected (column name filt) ->
      getitem_mask filt (series_eq (column name filt) selected) = []
      /\ iloc0 (getitem_mask filt (series_eq (column name filt) selected))
         = None).
Proof.
  rewrite getitem_mask_by_name. unfold column.
  induction filt as [|first filt [IHin IHout]].
  - split; [intros [] | intros _; now split].
  - cbn [map filter].
    destruct (String.eqb (name first) selected) eqn:Heq.
    + apply String.eqb_eq in Heq. split.
      * intros _. exists [], first, filt. cbn. now repeat split.
      * intros Hout. exfalso. apply Hout. now left.
    + apply String.eqb_neq in Heq. split.
      * intros [Hin|Hin]; [contradiction|].
        destruct (IHin Hin) as (before & row & after & H1 & H2 & H3 & H4).
        exists (first :: before), row, after.
        split; [cbn; now rewrite H1|]. split; [exact H2|].
        split; [|exact H4]. cbn. intros [Hf|Hb]; contradiction.
      * intros Hout. apply IHout. intros Hin. apply Hout. now right.
Qed.

Lemma selected_row_lookup_witness :
  In "16 Psyche" (column name [psyche])
  /\ exists before row after,
       [psyche] = before ++ row :: after
       /\ name row = "16 Psyche"
       /\ ~ In "16 Psyche" (column name before)
       /\ iloc0 (getitem_mask [psyche]
                   (series_eq (column name [psyche]) "16 Psyche"))
          = Some row.
Proof.
  assert (Hin : In "16 Psyche" (column name [psyche])) by (left; reflexivity).
  split; [exact Hin|].
  exact (proj1 (selected_row_lookup [psyche] "16 Psyche") Hin).
Defined.
